(** * react-graphql: the request reducer and the fetch callbacks of [App.tsx]

    A shallow embedding of [src/App.tsx]: the [State] and [Action] unions, the
    Ramda lens the reducer uses to append a page of repository edges, the
    [reducer] itself, and the two callbacks [onFetchRepos] and
    [onFetchMoreRepos], written in a small monad whose effects are the two
    the component has: posting a GraphQL request and dispatching an action;
    then the element [App] renders and the component's reaction to what the
    user does. *)

From Stdlib Require Import String Ascii List ZArith Bool Lia.
From ExtLib Require Import Structures.Monad Structures.MonadExc.
Import ListNotations.
Import MonadNotation.
Local Open Scope string_scope.
Local Open Scope monad_scope.

Set Implicit Arguments.

(** ** Data: the types declared in [App.tsx]

    [number] is modelled by [Z], arrays by lists, and an optional value
    ([cursor?: string], a response field that may be missing) by [option]. *)

(** One element of [edges] (declared [any[]]); the fields are those the
    query [GET_REPOSITORIES] selects under [edges { node { ... } }]. *)
Record Stargazers := { sg_totalCount : Z }.

Record Node := {
  id : string;
  node_name : string;
  viewerHasStarred : bool;
  stargazers : Stargazers;
  description : option string;
  createdAt : string
}.

Record Edge := { node : Node }.

Record PageInfo := {
  endCursor : string;
  hasNextPage : bool
}.

Record Repositories := {
  totalCount : Z;
  pageInfo : PageInfo;
  edges : list Edge
}.

(** [type Error = { type; message }]: one entry of a GraphQL [errors] array. *)
Record GQError := {
  type : string;
  message : string
}.

Record GQResponse := {
  name : string;
  url : string;
  repositories : Repositories
}.

(** The part of a [{ status: 'success'; data }] state or of an
    [{ type: 'init' | 'more'; data }] action that is left once the
    discriminant is taken away: an object whose one field is [data]. *)
Record DataObj := { data : GQResponse }.

(** [type State], one constructor per [status]. *)
Inductive State :=
| SEmpty
| SLoading
| SError (error : string)
| SSuccess (o : DataObj).

(** [type Action], one constructor per [type]. *)
Inductive Action :=
| ARequest
| AInit (o : DataObj)
| AMore (o : DataObj)
| AError (error : string).

(** ** Ramda: the three functions the reducer calls

    Ramda is a dependency of the repository; these definitions follow its
    documented behaviour on arrays and plain objects. *)
Module R.

(** A lens is a getter with a setter; the setter copies the object and
    replaces the focused field, leaving every other field as it was. *)
Record Lens (S A : Type) := lens {
  getter : S -> A;
  setter : A -> S -> S
}.

(** [R.view(lens, x)] *)
Definition view {S A} (l : Lens S A) (x : S) : A := getter l x.

(** [R.over(lens, f, x)] *)
Definition over {S A} (l : Lens S A) (f : A -> A) (x : S) : S :=
  setter l (f (getter l x)) x.

(** Focusing through one lens and then another: what [lensPath] does with
    the successive property names of its path. *)
Definition compose {S A B} (outer : Lens S A) (inner : Lens A B) : Lens S B :=
  lens (fun x => getter inner (getter outer x))
       (fun b x => setter outer (setter inner b (getter outer x)) x).

(** [R.concat(a, b)] on two arrays is [a.concat(b)]: a new array holding
    the elements of [a] and then those of [b]. *)
Fixpoint concat {A} (a b : list A) : list A :=
  match a with
  | [] => b
  | x :: a' => x :: concat a' b
  end.

End R.

(** [R.lensProp] at the three property names of the path. *)
Definition dataProp : R.Lens DataObj GQResponse :=
  R.lens data (fun v _ => {| data := v |}).

Definition repositoriesProp : R.Lens GQResponse Repositories :=
  R.lens repositories
         (fun v o => {| name := name o; url := url o; repositories := v |}).

Definition edgesProp : R.Lens Repositories (list Edge) :=
  R.lens edges
         (fun v o => {| totalCount := totalCount o; pageInfo := pageInfo o;
                        edges := v |}).

(** [const edgeLens = R.lensPath(['data', 'repositories', 'edges'])] *)
Definition edgeLens : R.Lens DataObj (list Edge) :=
  R.compose dataProp (R.compose repositoriesProp edgesProp).

(** ** The reducer *)

(** [const reducer = (state: State, action: Action): State => ...]

    In the ['more'] case the guard [state.status !== 'success'] narrows
    [state] to the object with a [data] field before the lens reads it, and
    [const { data } = R.over(...)] keeps the [data] field of the rewritten
    action. *)
Definition reducer (state : State) (action : Action) : State :=
  match action with
  | ARequest => SLoading
  | AInit o => SSuccess {| data := data o |}
  | AMore act =>
      match state with
      | SSuccess st =>
          let oldRepos := R.view edgeLens st in
          let '{| data := data |} := R.over edgeLens (R.concat oldRepos) act in
          SSuccess {| data := data |}
      | _ => state
      end
  | AError error => SError error
  end.

(** ** The GraphQL request and its reply *)

(** [const GET_REPOSITORIES] *)
Definition GET_REPOSITORIES : string := "
  query ($organization: String!, $limit: Int = 2, $cursor: String) {  
    organization(login: $organization) {
      name
      url
      repositories(first: $limit, after: $cursor) {
        totalCount
        pageInfo {
          endCursor
          hasNextPage
        }
        edges {
          node {
            id
            name
            viewerHasStarred
            stargazers {
              totalCount
            }
            description
            createdAt
          }
        }
      }
    }
  }
".

(** [variables: { organization, limit, cursor }] *)
Record Variables := {
  var_organization : string;
  var_limit : Z;
  var_cursor : option string
}.

(** The body handed to [githubGraphQL.post]. *)
Record Request := {
  query : string;
  variables : Variables
}.

(** What a thrown or rejected error object offers to the [catch] block. *)
Record JsError := {
  err_message : string;
  stack : string
}.

(** [data] of a GraphQL reply: the selected [organization]. *)
Record GQData := { organization : GQResponse }.

(** The reply body [{ data, errors }]; either field may be missing. *)
Record GQBody := {
  body_data : option GQData;
  body_errors : option (list GQError)
}.

(** The axios response; the callback reads its [data] field only. *)
Record AxiosResponse := { resp_data : GQBody }.

(** The promise returned by [post] settles one way or the other. *)
Inductive Settled :=
| Rejected (e : JsError)
| Resolved (r : AxiosResponse).

(** The text of [stack] is not fixed by the language: each JavaScript engine
    writes its own, so the engine is a parameter of the callbacks. *)
Record Engine := {
  (** the [stack] of the object built by [Error(message)] in [onFetchRepos] *)
  error_stack : string -> string;
  (** the [TypeError] raised on reading [.organization] of a missing [data] *)
  missing_data_error : JsError
}.

(** [Error(message)] *)
Definition Error (engine : Engine) (message : string) : JsError :=
  {| err_message := message; stack := error_stack engine message |}.

(** ** The effects of an [async] callback

    A callback either finishes, throws, awaits the reply to a posted request
    and goes on with it, or dispatches an action and goes on. *)
Inductive Async (A : Type) : Type :=
| Return (a : A)
| Throw (e : JsError)
| Post (req : Request) (k : Settled -> Async A)
| Dispatch (a : Action) (k : Async A).

Arguments Return {A} a.
Arguments Throw {A} e.
Arguments Post {A} req k.
Arguments Dispatch {A} a k.

Fixpoint Async_bind {A B} (p : Async A) (f : A -> Async B) : Async B :=
  match p with
  | Return a => f a
  | Throw e => Throw e
  | Post req k => Post req (fun s => Async_bind (k s) f)
  | Dispatch a k => Dispatch a (Async_bind k f)
  end.

(** [try { body } catch (error) { handler }] *)
Fixpoint Async_catch {A} (body : Async A) (handler : JsError -> Async A)
  : Async A :=
  match body with
  | Return a => Return a
  | Throw e => handler e
  | Post req k => Post req (fun s => Async_catch (k s) handler)
  | Dispatch a k => Dispatch a (Async_catch k handler)
  end.

#[export] Instance Monad_Async : Monad Async :=
  {| ret := @Return; bind := @Async_bind |}.

#[export] Instance Exception_Async : MonadExc JsError Async :=
  {| raise := @Throw; catch := @Async_catch |}.

(** [await githubGraphQL.post('', req)]: a rejected promise throws at the
    [await]. *)
Definition post (req : Request) : Async AxiosResponse :=
  Post req (fun s => match s with
                     | Rejected e => Throw e
                     | Resolved r => Return r
                     end).

(** [dispatch(action)] *)
Definition dispatch (action : Action) : Async unit :=
  Dispatch action (Return tt).

(** What an observer of the component sees, in order. *)
Inductive Event :=
| EvPost (req : Request)
| EvDispatch (a : Action).

(** The outcome of running a callback: the events it caused, the state the
    reducer has brought the component to, and how the callback ended. *)
Record Outcome (A : Type) := {
  events : list Event;
  final : State;
  result : JsError + A
}.

(** Running a callback against a network that settles every request, from
    the state [st] of [useReducer]: each dispatch goes through [reducer]. *)
Fixpoint run {A} (network : Request -> Settled) (p : Async A) (st : State)
  : Outcome A :=
  match p with
  | Return a => {| events := []; final := st; result := inr a |}
  | Throw e => {| events := []; final := st; result := inl e |}
  | Post req k =>
      let o := run network (k (network req)) st in
      {| events := EvPost req :: events o; final := final o;
         result := result o |}
  | Dispatch a k =>
      let o := run network k (reducer st a) in
      {| events := EvDispatch a :: events o; final := final o;
         result := result o |}
  end.

(** The actions among the events, in order. *)
Fixpoint dispatched (tr : list Event) : list Action :=
  match tr with
  | [] => []
  | EvPost _ :: tr' => dispatched tr'
  | EvDispatch a :: tr' => a :: dispatched tr'
  end.

(** ** The callbacks of [App] *)

(** JavaScript truthiness of [cursor?: string]: [undefined] and the empty
    string are falsy, every other string is truthy. *)
Definition truthy (cursor : option string) : bool :=
  match cursor with
  | None => false
  | Some c => negb (c =? "")
  end.

(** [const getReposOfOrganization = (organization, limit, cursor?) => ...] *)
Definition getReposOfOrganization (organization : string) (limit : Z)
  (cursor : option string) : Async AxiosResponse :=
  post {| query := GET_REPOSITORIES;
          variables := {| var_organization := organization;
                          var_limit := limit;
                          var_cursor := cursor |} |}.

(** [`[${error.type}] ${error.message}`] *)
Definition format_error (error : GQError) : string :=
  "[" ++ type error ++ "] " ++ message error.

Section Callbacks.

Variable engine : Engine.

(** [data.organization], which throws when [data] is missing. *)
Definition read_organization (data : option GQData) : Async GQResponse :=
  match data with
  | Some d => ret (organization d)
  | None => raise (missing_data_error engine)
  end.

(** [const onFetchRepos = async (search, limit, cursor?) => ...] *)
Definition onFetchRepos (search : string) (limit : Z)
  (cursor : option string) : Async unit :=
  catch
    (r <- getReposOfOrganization search limit cursor ;;
     let '{| body_data := data; body_errors := errors |} := resp_data r in
     match errors with
     | Some errors =>
         let message := String.concat ", " (map format_error errors) in
         raise (Error engine message)
     | None => ret tt
     end ;;
     if negb (truthy cursor) then
       org <- read_organization data ;;
       dispatch (AInit {| data := org |})
     else
       org <- read_organization data ;;
       dispatch (AMore {| data := org |}))
    (fun error => dispatch (AError (stack error))).

(** [const onFetchMoreRepos = () => ...], a closure over [query] and over
    the [state] of the render it was created in. *)
Definition onFetchMoreRepos (query : string) (state : State) : Async unit :=
  match state with
  | SSuccess st =>
      let cursor := endCursor (pageInfo (repositories (data st))) in
      onFetchRepos query 4 (Some cursor)
  | _ => ret tt
  end.

End Callbacks.

(** ** Properties stated about the reducer and the callbacks *)

(** [state.status === 'success'] *)
Definition is_success (s : State) : bool :=
  match s with
  | SSuccess _ => true
  | _ => false
  end.

(** [entries.length <= totalCount] in a success state. *)
Definition within_total (s : State) : bool :=
  match s with
  | SSuccess o =>
      let page := repositories (data o) in
      (Z.of_nat (length (edges page)) <=? totalCount page)%Z
  | _ => true
  end.

(** The state of [useReducer] after the actions [l], starting at [s]. *)
Definition after (s : State) (l : list Action) : State :=
  fold_left reducer l s.

(** The states the component can be in: [{ status: 'empty' }] followed by
    any actions. *)
Definition reachable (s : State) : Prop :=
  exists l, s = after SEmpty l.

(** The request [onFetchRepos(search, limit, cursor)] posts. *)
Definition request_for (search : string) (limit : Z) (cursor : option string)
  : Request :=
  {| query := GET_REPOSITORIES;
     variables := {| var_organization := search; var_limit := limit;
                     var_cursor := cursor |} |}.

(** A reply that carries [data] and no [errors]. *)
Definition success_reply (org : GQResponse) : Settled :=
  Resolved {| resp_data := {| body_data := Some {| organization := org |};
                              body_errors := None |} |}.

(** A reply that carries an [errors] array, with or without [data]. *)
Definition errors_reply (d : option GQData) (es : list GQError) : Settled :=
  Resolved {| resp_data := {| body_data := d; body_errors := Some es |} |}.

(** The action [onFetchRepos] answers such a reply with: [if (!cursor)] the
    first-page action, else the next-page action. *)
Definition success_action (cursor : option string) (org : GQResponse)
  : Action :=
  if truthy cursor then AMore {| data := org |} else AInit {| data := org |}.

(** ** Sample data *)
Module Sample.

Definition repo (i n : string) : Edge :=
  {| node := {| id := i; node_name := n; viewerHasStarred := false;
                stargazers := {| sg_totalCount := 0 |};
                description := None;
                createdAt := "2019-01-01T00:00:00Z" |} |}.

Definition hello := repo "1" "Hello-World".
Definition spoon := repo "2" "Spoon-Knife".
Definition third := repo "3" "git-consortium".

Definition octocat (total : Z) (cursor : string) (more : bool)
  (es : list Edge) : GQResponse :=
  {| name := "octocat"; url := "https://github.com/octocat";
     repositories := {| totalCount := total;
                        pageInfo := {| endCursor := cursor;
                                       hasNextPage := more |};
                        edges := es |} |}.

Definition newline : string := String (ascii_of_nat 10) EmptyString.

(** The first line of a stack as V8 writes it: the error's name, followed
    by a colon and the message when the message is not empty. *)
Definition v8_header (name message : string) : string :=
  if message =? "" then name else name ++ ": " ++ message.

(** An engine that lays stacks out the way V8 does: the header line, then
    one line per frame. The [TypeError] has the wording of current V8. *)
Definition v8 : Engine :=
  {| error_stack := fun m =>
       v8_header "Error" m ++ newline
       ++ "    at onFetchRepos (App.tsx:135:15)";
     missing_data_error :=
       {| err_message :=
            "Cannot read properties of undefined (reading 'organization')";
          stack :=
            v8_header "TypeError"
              "Cannot read properties of undefined (reading 'organization')"
            ++ newline ++ "    at onFetchRepos (App.tsx:139:49)" |} |}.

(** A network that answers every request with the same reply. *)
Definition always (s : Settled) : Request -> Settled := fun _ => s.

Definition not_found : GQError :=
  {| type := "NOT_FOUND"; message := "Could not resolve..." |}.

Definition forbidden : GQError :=
  {| type := "FORBIDDEN"; message := "Resource not accessible" |}.

(** Two pages of one session: between them a repository was removed, so
    the second page reports a smaller [totalCount]. *)
Definition first_page : DataObj :=
  {| data := octocat 2 "c1" true [hello] |}.

Definition shrunk_page : DataObj :=
  {| data := octocat 1 "c2" false [spoon] |}.

Definition last_page : DataObj :=
  {| data := octocat 2 "c2" false [spoon] |}.

End Sample.

(** ** More about runs of actions *)

(** [action.type === 'more'] *)
Definition is_more (a : Action) : bool :=
  match a with
  | AMore _ => true
  | _ => false
  end.

(** [action.type === 'request'] *)
Definition is_request (a : Action) : bool :=
  match a with
  | ARequest => true
  | _ => false
  end.

(** The last action of a run that is not a ['more'], if there is one. *)
Fixpoint last_decisive (l : list Action) : option Action :=
  match l with
  | [] => None
  | a :: l' =>
      match last_decisive l' with
      | Some b => Some b
      | None => if is_more a then None else Some a
      end
  end.

(** The pages of a run that is made of ['more'] actions only. *)
Fixpoint more_pages (l : list Action) : option (list DataObj) :=
  match l with
  | [] => Some []
  | AMore p :: l' => option_map (cons p) (more_pages l')
  | _ :: _ => None
  end.

(** The pages a run ends with: the page of its last ['init'] and the pages
    of the ['more'] actions after it, when nothing else comes after that
    ['init']. Read off the actions alone. *)
Fixpoint pages_since_init (l : list Action) : option (list DataObj) :=
  match l with
  | [] => None
  | a :: l' =>
      match pages_since_init l' with
      | Some pages => Some pages
      | None =>
          match a with
          | AInit p => option_map (cons p) (more_pages l')
          | _ => None
          end
      end
  end.

(** Pages served from one list of repositories: every page reports the
    length of that list as its [totalCount], and the pages, one after the
    other, are the list from its start on. *)
Definition served (repos : list Edge) (pages : list DataObj) : Prop :=
  Forall (fun p => totalCount (repositories (data p))
                   = Z.of_nat (length repos)) pages /\
  exists rest : list Edge,
    repos = (flat_map (R.view edgeLens) pages ++ rest)%list.

(** The edges a state holds: those of a success state, none otherwise. *)
Definition entries (s : State) : list Edge :=
  match s with
  | SSuccess o => R.view edgeLens o
  | _ => []
  end.

(** The three laws of a lens: what is set is what is read, setting what was
    read changes nothing, and the last of two settings wins. *)
Definition lawful {S A} (l : R.Lens S A) : Prop :=
  (forall v x, R.getter l (R.setter l v x) = v) /\
  (forall x, R.setter l (R.getter l x) x = x) /\
  (forall v w x, R.setter l v (R.setter l w x) = R.setter l v x).

(** ** What [App] renders

    A React element is a tag with its props and children; a child may also
    be a text, a number, or [false]/[null], which React renders as nothing. *)

(** The callbacks bound to the elements. *)
Inductive Handler :=
| HSubmit
| HChange
| HFetchMore.

Inductive Attr :=
| Str (name value : string)
| Style (name value : string)
| On (name : string) (h : Handler)
| Key (k : string).

#[warnings="-register-all"]
Inductive Html :=
| Text (s : string)
| Num (n : Z)
| Blank
| Tag (name : string) (attrs : list Attr) (children : list Html).

(** [cond && element] *)
Definition when (cond : bool) (element : Html) : Html :=
  if cond then element else Blank.

(** A child that may be [null]. *)
Definition nullable (s : option string) : Html :=
  match s with
  | Some s => Text s
  | None => Blank
  end.

(** [`${b}`] *)
Definition bool_text (b : bool) : string :=
  if b then "true" else "false".

(** The hooks of [App]: the two [useState] values and the [useReducer]
    state. *)
Module Hooks.

Record t := {
  usrInput : string;
  query : string;
  state : State
}.

End Hooks.

Module View.

(** One [<li>] of the list, keyed by the node's id. *)
Definition item (edge : Edge) : Html :=
  Tag "li" [Key (id (node edge))]
      [Tag "p" [] [Text "Name: "; Text (node_name (node edge))];
       Tag "p" [] [Text "Description: "; nullable (description (node edge))];
       Tag "span" []
           [Text "Stars: "; Num (sg_totalCount (stargazers (node edge)));
            Text " /"; Text " ";
            Text (bool_text (viewerHasStarred (node edge)))]].

(** [const Repositories = ({ repositories, onFetchMore }) => ...] *)
Definition Repositories (repositories : Repositories) (onFetchMore : Handler)
  : Html :=
  Tag "div" []
      [Tag "p" [] [Text "Total repositories: "; Num (totalCount repositories)];
       Tag "ol" [] (map item (edges repositories));
       when (hasNextPage (pageInfo repositories))
            (Tag "button" [On "onClick" onFetchMore] [Text "More"])].

(** [const Organization = ({ data, onFetchMore }) => ...] *)
Definition Organization (data : GQResponse) (onFetchMore : Handler) : Html :=
  Tag "div" []
      [Tag "p" []
           [Tag "strong" [] [Text "Issues from Organizations:"];
            Tag "a" [Str "href" (url data)] [Text (name data)]];
       Repositories (repositories data) onFetchMore].

(** The element [App] returns, from the values of its hooks. *)
Definition App (h : Hooks.t) : Html :=
  Tag "div" []
      [Tag "h1" [] [Text "React with GraphQL"];
       Tag "form" [On "onSubmit" HSubmit]
           [Tag "label" [Str "htmlFor" "url"]
                [Text "Show open issues for https://github.com/"];
            Tag "input" [Str "id" "url"; Str "type" "text";
                         Str "value" (Hooks.usrInput h);
                         On "onChange" HChange; Style "width" "300px"] [];
            Tag "button" [Str "type" "submit"] [Text "Search"]];
       Tag "hr" [] [];
       match Hooks.state h with
       | SLoading => Tag "div" [] [Text "Loading ..."]
       | _ => Blank
       end;
       match Hooks.state h with
       | SError error => Tag "strong" [] [Text error]
       | _ => Blank
       end;
       match Hooks.state h with
       | SSuccess o => Organization (data o) HFetchMore
       | _ => Blank
       end].

End View.

(** Every node of an element, the element first and then its descendants in
    document order. *)
Fixpoint nodes (h : Html) : list Html :=
  match h with
  | Tag _ _ children => h :: flat_map nodes children
  | _ => [h]
  end.

(** The handlers an element binds to the event [event]. *)
Fixpoint bound (event : string) (attrs : list Attr) : list Handler :=
  match attrs with
  | [] => []
  | On name h :: attrs' =>
      if name =? event then h :: bound event attrs' else bound event attrs'
  | _ :: attrs' => bound event attrs'
  end.

Definition attrs_of (h : Html) : list Attr :=
  match h with
  | Tag _ attrs _ => attrs
  | _ => []
  end.

(** The handlers a click can reach somewhere in the element. *)
Definition on_click (h : Html) : list Handler :=
  flat_map (fun n => bound "onClick" (attrs_of n)) (nodes h).

(** The [key]s of the [<li>] elements, in document order. *)
Definition item_keys (h : Html) : list string :=
  flat_map (fun n =>
              match n with
              | Tag "li" (Key k :: _) _ => [k]
              | _ => []
              end) (nodes h).

(** The texts shown, in document order. *)
Definition texts (h : Html) : list string :=
  flat_map (fun n =>
              match n with
              | Text s => [s]
              | _ => []
              end) (nodes h).

Definition is_fetch_more (h : Handler) : bool :=
  match h with
  | HFetchMore => true
  | _ => false
  end.

(** Whether the element offers the [More] button. *)
Definition offers_more (h : Html) : bool :=
  existsb is_fetch_more (on_click h).

(** ** The component at work

    What the user can do to the page. *)
Inductive UserEvent :=
| Change (value : string)
| Submit
| ClickMore.

(** [useState('the-road-to-learn-react')], twice, and
    [useReducer(reducer, { status: 'empty' })]. *)
Definition initial : Hooks.t :=
  {| Hooks.usrInput := "the-road-to-learn-react";
     Hooks.query := "the-road-to-learn-react";
     Hooks.state := SEmpty |}.

(** [const onChange = ev => setUsrInput(ev.target.value)] *)
Definition onChange (value : string) (h : Hooks.t) : Hooks.t :=
  {| Hooks.usrInput := value;
     Hooks.query := Hooks.query h;
     Hooks.state := Hooks.state h |}.

(** [const onSubmit = ev => { ev.preventDefault(); setQuery(usrInput); }] *)
Definition onSubmit (h : Hooks.t) : Hooks.t :=
  {| Hooks.usrInput := Hooks.usrInput h;
     Hooks.query := Hooks.usrInput h;
     Hooks.state := Hooks.state h |}.

(** [useEffect(..., [query])] runs its effect again when [query] differs
    from the one of the render before. *)
Definition effect_due (before now : Hooks.t) : bool :=
  negb (Hooks.query before =? Hooks.query now).

Section Component.

Variable engine : Engine.

(** A callback run to its end against [network]: the reducer state becomes
    the one the callback's dispatches lead to. *)
Definition settle (network : Request -> Settled) (h : Hooks.t)
  (p : Async unit) : Hooks.t * list Event :=
  let o := run network p (Hooks.state h) in
  ({| Hooks.usrInput := Hooks.usrInput h;
      Hooks.query := Hooks.query h;
      Hooks.state := final o |}, events o).

(** The effect [() => { onFetchRepos(query, 4); }] *)
Definition effect (network : Request -> Settled) (h : Hooks.t)
  : Hooks.t * list Event :=
  settle network h (onFetchRepos engine (Hooks.query h) 4 None).

(** The first render: the effect runs once. *)
Definition mount (network : Request -> Settled) : Hooks.t * list Event :=
  effect network initial.

(** One user event, with the request it causes (if any) settled by [network]
    before the next event. A click on [More] needs the button to be there. *)
Definition step (h : Hooks.t) (ev : UserEvent) (network : Request -> Settled)
  : Hooks.t * list Event :=
  match ev with
  | Change value => (onChange value h, [])
  | Submit =>
      let h' := onSubmit h in
      if effect_due h h' then effect network h' else (h', [])
  | ClickMore =>
      if offers_more (View.App h) then
        settle network h
               (onFetchMoreRepos engine (Hooks.query h) (Hooks.state h))
      else (h, [])
  end.

(** A run of user events, each with the network that answers it. *)
Fixpoint session (h : Hooks.t)
  (l : list (UserEvent * (Request -> Settled))) : Hooks.t * list Event :=
  match l with
  | [] => (h, [])
  | (ev, network) :: l' =>
      let '(h1, tr1) := step h ev network in
      let '(h2, tr2) := session h1 l' in
      (h2, (tr1 ++ tr2)%list)
  end.

End Component.

(** ** The reducer: appending a page *)

Lemma concat_app {A} (a b : list A) : R.concat a b = (a ++ b)%list.
Proof.
  induction a as [|x a IH]; simpl.
  - reflexivity.
  - now rewrite IH.
Qed.


(** What the lens reads and writes, spelled out on the fields. *)
Lemma view_edgeLens (o : DataObj) :
  R.view edgeLens o = edges (repositories (data o)).
Proof. reflexivity. Qed.

Lemma over_edgeLens (f : list Edge -> list Edge) (o : DataObj) :
  R.over edgeLens f o =
  {| data := {| name := name (data o);
                url := url (data o);
                repositories :=
                  {| totalCount := totalCount (repositories (data o));
                     pageInfo := pageInfo (repositories (data o));
                     edges := f (edges (repositories (data o))) |} |} |}.
Proof. reflexivity. Qed.

(** The ['more'] case on a success state, as one equation. *)
Lemma reducer_more_success (st act : DataObj) :
  reducer (SSuccess st) (AMore act) =
  SSuccess (R.over edgeLens (R.concat (R.view edgeLens st)) act).
Proof.
  unfold reducer.
  destruct (R.over edgeLens (R.concat (R.view edgeLens st)) act).
  reflexivity.
Qed.

(** C1. From [Succeeded(R1)], the event [RequestSucceededNextPage(R2)] leads
    to [Succeeded] with the entries of [R1] followed by those of [R2], in
    order and with nothing removed, and with [totalCount], [endCursor],
    [hasNextPage], [name] and [url] those of [R2]. *)
Theorem more_appends_page (R1 R2 : GQResponse) :
  reducer (SSuccess {| data := R1 |}) (AMore {| data := R2 |}) =
  SSuccess
    {| data :=
         {| name := name R2;
            url := url R2;
            repositories :=
              {| totalCount := totalCount (repositories R2);
                 pageInfo :=
                   {| endCursor := endCursor (pageInfo (repositories R2));
                      hasNextPage := hasNextPage (pageInfo (repositories R2)) |};
                 edges := (edges (repositories R1) ++ edges (repositories R2))%list
              |} |} |}.
Proof.
  rewrite reducer_more_success, over_edgeLens, view_edgeLens, concat_app.
  destruct R2 as [n u [t [c h] es]]. reflexivity.
Qed.


(** C3. In a state that is not a success state ([Empty], [Loading] or
    [Failed]) the event [RequestSucceededNextPage(R)] changes nothing: the
    reducer returns the state it was given. *)
Theorem more_outside_success_is_noop (s : State) (R : GQResponse) :
  is_success s = false ->
  reducer s (AMore {| data := R |}) = s.
Proof.
  destruct s; simpl; intros H; try reflexivity. discriminate H.
Qed.

Lemma more_outside_success_is_noop_witness :
  is_success (SError "boom") = false /\
  reducer (SError "boom")
          (AMore {| data := Sample.octocat 5 "c1" true [Sample.hello] |})
  = SError "boom".
Proof.
  split.
  - reflexivity.
  - apply (@more_outside_success_is_noop (SError "boom")). reflexivity.
Defined.

(** C7. From every state, [RequestStarted] leads to [Loading], which carries
    nothing of the state before it. *)
Theorem request_leads_to_loading (s : State) :
  reducer s ARequest = SLoading.
Proof. reflexivity. Qed.

(** ** The reducer: entries against [totalCount] *)

(** C8, as stated, fails: the reducer stores whatever [totalCount] the last
    page brings. After a first page of one entry out of two and a further
    page of one entry that reports a total of one, the state is reachable
    and shows two entries against a [totalCount] of one. *)
Lemma entries_exceed_total :
  reachable (after SEmpty [AInit Sample.first_page; AMore Sample.shrunk_page])
  /\ within_total
       (after SEmpty [AInit Sample.first_page; AMore Sample.shrunk_page])
     = false.
Proof.
  split.
  - exists [AInit Sample.first_page; AMore Sample.shrunk_page]. reflexivity.
  - reflexivity.
Qed.

(** ** The callbacks: what [onFetchRepos] does with each reply *)

Section Replies.

Variable engine : Engine.
Variable network : Request -> Settled.
Variables (search : string) (limit : Z) (cursor : option string).
Variable st : State.

Let req := request_for search limit cursor.
Let outcome := run network (onFetchRepos engine search limit cursor) st.

(** One post, then one dispatch of [a]. *)
Let posts_then (a : Action) : Outcome unit :=
  {| events := [EvPost req; EvDispatch a];
     final := reducer st a;
     result := inr tt |}.

Lemma onFetchRepos_rejected (e : JsError) :
  network req = Rejected e ->
  outcome = posts_then (AError (stack e)).
Proof.
  subst req outcome posts_then. unfold request_for. intros H.
  unfold onFetchRepos, getReposOfOrganization, post. cbn.
  rewrite H. reflexivity.
Qed.

Lemma onFetchRepos_errors (d : option GQData) (es : list GQError) :
  network req = errors_reply d es ->
  outcome =
  posts_then
    (AError (stack (Error engine
                          (String.concat ", " (map format_error es))))).
Proof.
  subst req outcome posts_then. unfold request_for, errors_reply. intros H.
  unfold onFetchRepos, getReposOfOrganization, post. cbn.
  rewrite H. reflexivity.
Qed.

Lemma onFetchRepos_success (org : GQResponse) :
  network req = success_reply org ->
  outcome = posts_then (success_action cursor org).
Proof.
  subst req outcome posts_then. unfold request_for, success_reply. intros H.
  unfold onFetchRepos, getReposOfOrganization, post, success_action. cbn.
  rewrite H. cbn. destruct (truthy cursor); reflexivity.
Qed.

Lemma onFetchRepos_missing_data :
  network req =
  Resolved {| resp_data := {| body_data := None; body_errors := None |} |} ->
  outcome = posts_then (AError (stack (missing_data_error engine))).
Proof.
  subst req outcome posts_then. unfold request_for. intros H.
  unfold onFetchRepos, getReposOfOrganization, post. cbn.
  rewrite H. cbn. destruct (truthy cursor); reflexivity.
Qed.

(** Whatever the reply, the callback posts once and then dispatches once,
    and the action is one of ['init'], ['more'] and ['error']. *)
Lemma onFetchRepos_outcome :
  exists a, outcome = posts_then a /\ a <> ARequest.
Proof.
  destruct (network req) as [e | [[[[org]|] [es|]]]] eqn:H.
  - eexists. split; [apply (onFetchRepos_rejected H) | discriminate].
  - eexists. split; [apply (onFetchRepos_errors H) | discriminate].
  - exists (success_action cursor org).
    split; [apply (onFetchRepos_success H) |].
    unfold success_action. destruct (truthy cursor); discriminate.
  - eexists. split; [apply (onFetchRepos_errors H) | discriminate].
  - eexists. split; [apply (onFetchRepos_missing_data H) | discriminate].
Qed.

End Replies.

(** ** The callbacks: the statements about a fetch *)

(** C4, as stated, fails: the [catch] block dispatches [error.stack], not
    the message. On an engine that writes stacks as V8 does, a reply whose
    [errors] hold one [NOT_FOUND] entry leaves the state [Failed] with the
    stack text, which starts with the error's name and goes on with a frame
    line after the message. *)
Lemma failed_state_holds_stack :
  final (run (Sample.always (errors_reply None [Sample.not_found]))
             (onFetchRepos Sample.v8 "octocat" 4 None) SEmpty)
  = SError (error_stack Sample.v8 "[NOT_FOUND] Could not resolve...")
  /\
  final (run (Sample.always (errors_reply None [Sample.not_found]))
             (onFetchRepos Sample.v8 "octocat" 4 None) SEmpty)
  <> SError "[NOT_FOUND] Could not resolve...".
Proof.
  split.
  - reflexivity.
  - intros H. vm_compute in H. discriminate H.
Qed.

(** C4, amended. Whenever the reply carries a non-empty [errors] array, with
    [data] beside it or not, the fetch drops the data: it dispatches nothing
    but one ['error'] action and leaves the state [Failed], and the error
    string is the [stack] of the [Error] object built with, as its message,
    the entries formatted as "[type] message" and joined with ", ". *)
Theorem errors_take_precedence (engine : Engine)
  (network : Request -> Settled) (search : string) (limit : Z)
  (cursor : option string) (st : State)
  (d : option GQData) (es : list GQError) :
  es <> [] ->
  network (request_for search limit cursor) = errors_reply d es ->
  let text :=
    stack (Error engine (String.concat ", " (map format_error es))) in
  dispatched (events (run network (onFetchRepos engine search limit cursor) st))
  = [AError text] /\
  final (run network (onFetchRepos engine search limit cursor) st)
  = SError text.
Proof.
  intros _ H text. rewrite (onFetchRepos_errors engine _ _ _ _ st H).
  split; reflexivity.
Qed.

Lemma errors_take_precedence_witness :
  [Sample.not_found; Sample.forbidden] <> [] /\
  Sample.always
    (errors_reply (Some {| organization :=
                             Sample.octocat 5 "c1" true [Sample.hello] |})
                  [Sample.not_found; Sample.forbidden])
    (request_for "octocat" 4 None)
  = errors_reply (Some {| organization :=
                            Sample.octocat 5 "c1" true [Sample.hello] |})
                 [Sample.not_found; Sample.forbidden]
  /\
  final (run (Sample.always
                (errors_reply
                   (Some {| organization :=
                              Sample.octocat 5 "c1" true [Sample.hello] |})
                   [Sample.not_found; Sample.forbidden]))
             (onFetchRepos Sample.v8 "octocat" 4 None) SLoading)
  = SError
      (stack
         (Error Sample.v8
            "[NOT_FOUND] Could not resolve..., [FORBIDDEN] Resource not accessible")).
Proof.
  split; [discriminate | split; [reflexivity |]].
  apply (@errors_take_precedence Sample.v8
           (Sample.always
              (errors_reply
                 (Some {| organization :=
                            Sample.octocat 5 "c1" true [Sample.hello] |})
                 [Sample.not_found; Sample.forbidden]))
           "octocat" 4%Z None SLoading
           (Some {| organization :=
                      Sample.octocat 5 "c1" true [Sample.hello] |})
           [Sample.not_found; Sample.forbidden]).
  - discriminate.
  - reflexivity.
Defined.

(** C5, on the code. Whatever the reply, one call of [onFetchRepos] causes
    exactly two events: the post of the request, and after it the dispatch
    of one action, which is ['init'], ['more'] or ['error'] and never
    ['request']. The callback does not dispatch ['request'] before the
    post, nor at any other point. *)
Theorem fetch_posts_then_dispatches_once (engine : Engine)
  (network : Request -> Settled) (search : string) (limit : Z)
  (cursor : option string) (st : State) :
  exists a : Action,
    events (run network (onFetchRepos engine search limit cursor) st)
    = [EvPost (request_for search limit cursor); EvDispatch a] /\
    a <> ARequest /\
    ~ In ARequest
        (dispatched
           (events (run network (onFetchRepos engine search limit cursor) st))).
Proof.
  destruct (onFetchRepos_outcome engine network search limit cursor st)
    as [a [Hrun Ha]].
  exists a. rewrite Hrun. simpl. repeat split; trivial.
  intros [Heq | []]. now apply Ha.
Qed.

(** C6, as stated, fails: a cursor can be supplied and still lead to the
    first-page action. With the empty string as cursor and a reply that
    carries data, the action dispatched is ['init'], not ['more']. *)
Lemma supplied_cursor_yields_init :
  dispatched
    (events (run (Sample.always
                    (success_reply (Sample.octocat 5 "c1" true [Sample.hello])))
                 (onFetchRepos Sample.v8 "octocat" 4 (Some "")) SLoading))
  <> [AMore {| data := Sample.octocat 5 "c1" true [Sample.hello] |}].
Proof. intros H. vm_compute in H. discriminate H. Qed.

(** C6, amended. On a reply that carries data and no errors, the action
    dispatched is decided by the cursor argument alone, by its truthiness:
    no cursor, or the empty string, yields ['init']; a non-empty cursor
    yields ['more']. The organization, the page size, the engine and the
    current state play no part. *)
Theorem cursor_alone_selects_action (engine : Engine)
  (network : Request -> Settled) (search : string) (limit : Z)
  (cursor : option string) (st : State) (org : GQResponse) :
  network (request_for search limit cursor) = success_reply org ->
  (cursor = None \/ cursor = Some "" ->
   dispatched (events (run network (onFetchRepos engine search limit cursor) st))
   = [AInit {| data := org |}]) /\
  (forall c : string, cursor = Some c -> c <> "" ->
   dispatched (events (run network (onFetchRepos engine search limit cursor) st))
   = [AMore {| data := org |}]).
Proof.
  intros H. rewrite (onFetchRepos_success engine _ _ _ _ st H).
  unfold success_action. split.
  - intros [-> | ->]; reflexivity.
  - intros c -> Hc. simpl.
    destruct (String.eqb_spec c ""); [contradiction | reflexivity].
Qed.

Lemma cursor_alone_selects_action_witness :
  Sample.always (success_reply (Sample.octocat 5 "c2" false [Sample.spoon]))
                (request_for "octocat" 4 (Some "c1"))
  = success_reply (Sample.octocat 5 "c2" false [Sample.spoon])
  /\
  dispatched
    (events (run (Sample.always
                    (success_reply (Sample.octocat 5 "c2" false [Sample.spoon])))
                 (onFetchRepos Sample.v8 "octocat" 4 (Some "c1"))
                 (SSuccess Sample.first_page)))
  = [AMore {| data := Sample.octocat 5 "c2" false [Sample.spoon] |}].
Proof.
  split.
  - reflexivity.
  - refine (proj2 (@cursor_alone_selects_action Sample.v8
                     (Sample.always
                        (success_reply
                           (Sample.octocat 5 "c2" false [Sample.spoon])))
                     "octocat" 4%Z (Some "c1") (SSuccess Sample.first_page)
                     (Sample.octocat 5 "c2" false [Sample.spoon]) _)
                  "c1" eq_refl _).
    + reflexivity.
    + discriminate.
Defined.

(** C9. When the state the button's callback closes over is not a success
    state, [onFetchMoreRepos] returns at once: nothing is posted, nothing is
    dispatched, and the state held by the reducer stays as it is. *)
Theorem fetch_more_outside_success_is_inert (engine : Engine)
  (network : Request -> Settled) (query : string) (state held : State) :
  is_success state = false ->
  run network (onFetchMoreRepos engine query state) held
  = {| events := []; final := held; result := inr tt |}.
Proof.
  destruct state; simpl; intros H; try reflexivity. discriminate H.
Qed.

Lemma fetch_more_outside_success_is_inert_witness :
  is_success SLoading = false /\
  run (Sample.always
         (success_reply (Sample.octocat 5 "c1" true [Sample.hello])))
      (onFetchMoreRepos Sample.v8 "octocat" SLoading) SLoading
  = {| events := []; final := SLoading; result := inr tt |}.
Proof.
  split.
  - reflexivity.
  - apply (@fetch_more_outside_success_is_inert Sample.v8
             (Sample.always
                (success_reply (Sample.octocat 5 "c1" true [Sample.hello])))
             "octocat" SLoading SLoading).
    reflexivity.
Defined.

(** C10. A fetch whose cursor is the empty string is a first-page fetch: the
    empty string is falsy, so on a reply that carries data the action
    dispatched is ['init'] and not ['more'], although the request posted
    still carries the empty cursor. *)
Theorem empty_cursor_is_first_page (engine : Engine)
  (network : Request -> Settled) (search : string) (limit : Z)
  (st : State) (org : GQResponse) :
  network (request_for search limit (Some "")) = success_reply org ->
  truthy (Some "") = false /\
  events (run network (onFetchRepos engine search limit (Some "")) st)
  = [EvPost (request_for search limit (Some ""));
     EvDispatch (AInit {| data := org |})].
Proof.
  intros H. split; [reflexivity |].
  rewrite (onFetchRepos_success engine _ _ _ _ st H). reflexivity.
Qed.

Lemma empty_cursor_is_first_page_witness :
  Sample.always (success_reply (Sample.octocat 5 "c1" true [Sample.hello]))
                (request_for "octocat" 4 (Some ""))
  = success_reply (Sample.octocat 5 "c1" true [Sample.hello])
  /\
  events
    (run (Sample.always
            (success_reply (Sample.octocat 5 "c1" true [Sample.hello])))
         (onFetchRepos Sample.v8 "octocat" 4 (Some "")) SEmpty)
  = [EvPost (request_for "octocat" 4 (Some ""));
     EvDispatch (AInit {| data := Sample.octocat 5 "c1" true [Sample.hello] |})].
Proof.
  split.
  - reflexivity.
  - apply (@empty_cursor_is_first_page Sample.v8
             (Sample.always
                (success_reply (Sample.octocat 5 "c1" true [Sample.hello])))
             "octocat" 4%Z SEmpty
             (Sample.octocat 5 "c1" true [Sample.hello])).
    reflexivity.
Defined.

(** ** A session from start to end *)

(** In a success state the button's callback fetches four more repositories
    after the [endCursor] the state holds. *)
Lemma fetch_more_on_success (engine : Engine) (network : Request -> Settled)
  (query : string) (o : DataObj) (held : State) :
  run network (onFetchMoreRepos engine query (SSuccess o)) held
  = run network
        (onFetchRepos engine query 4
                      (Some (endCursor (pageInfo (repositories (data o))))))
        held.
Proof. reflexivity. Qed.

(** A first page and then a further one: the state ends with both entries
    in fetch order and with the page data of the second reply. *)
Example two_pages_session :
  let first := run (Sample.always (success_reply (data Sample.first_page)))
                   (onFetchRepos Sample.v8 "octocat" 4 None) SEmpty in
  let second := run (Sample.always (success_reply (data Sample.last_page)))
                    (onFetchMoreRepos Sample.v8 "octocat" (final first))
                    (final first) in
  final first = SSuccess Sample.first_page /\
  final second
  = SSuccess {| data := Sample.octocat 2 "c2" false
                                       [Sample.hello; Sample.spoon] |}.
Proof. split; reflexivity. Qed.

(** ** The lens on the edges *)

Lemma lawful_compose {S A B} (outer : R.Lens S A) (inner : R.Lens A B) :
  lawful outer -> lawful inner -> lawful (R.compose outer inner).
Proof.
  intros (Ho1 & Ho2 & Ho3) (Hi1 & Hi2 & Hi3). repeat split; simpl.
  - intros v x. now rewrite Ho1, Hi1.
  - intros x. now rewrite Hi2, Ho2.
  - intros v w x. now rewrite Ho3, Ho1, Hi3.
Qed.

Lemma lawful_dataProp : lawful dataProp.
Proof. repeat split; intros; try destruct x; reflexivity. Qed.

Lemma lawful_repositoriesProp : lawful repositoriesProp.
Proof. repeat split; intros; try destruct x; reflexivity. Qed.

Lemma lawful_edgesProp : lawful edgesProp.
Proof. repeat split; intros; try destruct x; reflexivity. Qed.

Lemma lawful_edgeLens : lawful edgeLens.
Proof.
  apply lawful_compose; [apply lawful_dataProp |].
  apply lawful_compose; [apply lawful_repositoriesProp | apply lawful_edgesProp].
Qed.

(** X1. The lens [R.lensPath(['data', 'repositories', 'edges'])] is a lawful
    lens: reading after writing gives what was written, writing back what
    was read changes nothing, a second write replaces the first; and
    [R.over] with the identity is the identity, two [R.over] in a row are
    one with the composed function. *)
Theorem edgeLens_reads_what_it_writes :
  lawful edgeLens /\
  (forall o, R.over edgeLens (fun es => es) o = o) /\
  (forall f g o,
      R.over edgeLens f (R.over edgeLens g o)
      = R.over edgeLens (fun es => f (g es)) o).
Proof.
  pose proof lawful_edgeLens as H. destruct H as (H1 & H2 & H3).
  split; [exact lawful_edgeLens | split].
  - intros o. unfold R.over. apply H2.
  - intros f g o. unfold R.over. now rewrite H1, H3.
Qed.

(** ** The reducer over runs of actions *)

Lemma after_cons (s : State) (a : Action) (l : list Action) :
  after s (a :: l) = after (reducer s a) l.
Proof. reflexivity. Qed.

Lemma after_app (s : State) (l1 l2 : list Action) :
  after s (l1 ++ l2)%list = after (after s l1) l2.
Proof. unfold after. apply fold_left_app. Qed.

Lemma reducer_more_set (st act : DataObj) :
  reducer (SSuccess st) (AMore act) =
  SSuccess (R.setter edgeLens
              (R.view edgeLens st ++ R.view edgeLens act)%list act).
Proof.
  rewrite reducer_more_success. unfold R.over.
  now rewrite concat_app.
Qed.

Lemma last_of_nonempty {A} (ps : list A) :
  forall p a b : A, last (p :: ps) a = last (p :: ps) b.
Proof.
  induction ps as [|p' ps IH]; intros p a b.
  - reflexivity.
  - change (last (p' :: ps) a = last (p' :: ps) b). apply IH.
Qed.

Lemma setter_last (es ws : list Edge) (ps : list DataObj) (q : DataObj) :
  R.setter edgeLens es (last ps (R.setter edgeLens ws q))
  = R.setter edgeLens es (last ps q).
Proof.
  destruct lawful_edgeLens as (_ & _ & H3).
  destruct ps as [|p ps].
  - simpl last. apply H3.
  - f_equal. apply last_of_nonempty.
Qed.

Lemma mores_accumulate (ps : list DataObj) :
  forall o : DataObj,
    after (SSuccess o) (map AMore ps)
    = SSuccess
        (R.setter edgeLens
           (R.view edgeLens o ++ flat_map (R.view edgeLens) ps)%list
           (last ps o)).
Proof.
  destruct lawful_edgeLens as (H1 & H2 & H3).
  induction ps as [|q ps IH]; intros o.
  - unfold after. cbn [map flat_map fold_left last].
    rewrite app_nil_r. unfold R.view. now rewrite H2.
  - cbn [map flat_map]. rewrite after_cons, reducer_more_set, IH.
    unfold R.view at 1. rewrite H1, <- app_assoc.
    rewrite setter_last. do 2 f_equal.
    destruct ps as [|d ps]; [reflexivity |].
    change (last (d :: ps) q = last (d :: ps) o). apply last_of_nonempty.
Qed.

(** X2. A first page followed by any number of further pages, from whatever
    state: the result is a success state that holds the last page received,
    its edges replaced by the edges of all the pages in the order they
    came. *)
Theorem pages_accumulate (s : State) (p : DataObj) (ps : list DataObj) :
  after s (AInit p :: map AMore ps)
  = SSuccess
      (R.setter edgeLens
         (R.view edgeLens p ++ flat_map (R.view edgeLens) ps)%list
         (last ps p)).
Proof.
  rewrite after_cons. simpl reducer.
  replace {| data := data p |} with p by now destruct p.
  apply mores_accumulate.
Qed.

Lemma mores_outside_success (s : State) (l : list Action) :
  is_success s = false -> forallb is_more l = true -> after s l = s.
Proof.
  intros Hs. induction l as [|a l IH]; intros Hl.
  - reflexivity.
  - simpl in Hl. apply andb_prop in Hl. destruct Hl as [Ha Hl].
    rewrite after_cons. destruct a; try discriminate Ha.
    destruct s; try discriminate Hs; now apply IH.
Qed.

(** X3. Further pages only ever append: over a run of ['more'] actions the
    entries a state held are a prefix of the entries it ends with, so no
    earlier entry moves or goes away. *)
Theorem mores_only_append (s : State) (l : list Action) :
  forallb is_more l = true ->
  exists added : list Edge,
    entries (after s l) = (entries s ++ added)%list.
Proof.
  revert s. induction l as [|a l IH]; intros s Hl.
  - exists []. simpl. now rewrite app_nil_r.
  - simpl in Hl. apply andb_prop in Hl. destruct Hl as [Ha Hl].
    rewrite after_cons. destruct a as [|o|act|e]; try discriminate Ha.
    destruct s as [| |e|st]; try (now apply IH).
    rewrite reducer_more_set.
    destruct (IH (SSuccess (R.setter edgeLens
                              (R.view edgeLens st ++ R.view edgeLens act)%list
                              act)) Hl) as [added Hadd].
    exists (R.view edgeLens act ++ added)%list.
    rewrite Hadd. cbn [entries].
    destruct lawful_edgeLens as (H1 & _ & _).
    unfold R.view at 1. rewrite H1. now rewrite app_assoc.
Qed.

Lemma mores_only_append_witness :
  forallb is_more [AMore Sample.last_page; AMore Sample.shrunk_page] = true /\
  exists added : list Edge,
    entries (after (SSuccess Sample.first_page)
                   [AMore Sample.last_page; AMore Sample.shrunk_page])
    = (entries (SSuccess Sample.first_page) ++ added)%list.
Proof.
  split.
  - reflexivity.
  - apply (@mores_only_append (SSuccess Sample.first_page)
             [AMore Sample.last_page; AMore Sample.shrunk_page]).
    reflexivity.
Defined.

(** X4. Two further pages in a row amount to one: the second page with the
    edges of the first put in front of its own. *)
Theorem two_mores_merge_as_one (st p1 p2 : DataObj) :
  reducer (reducer (SSuccess st) (AMore p1)) (AMore p2)
  = reducer (SSuccess st)
            (AMore (R.over edgeLens (R.concat (R.view edgeLens p1)) p2)).
Proof.
  destruct lawful_edgeLens as (H1 & _ & H3).
  rewrite !reducer_more_set. unfold R.over, R.view.
  rewrite !H1, H3, concat_app. now rewrite app_assoc.
Qed.

(** X5. Once a run holds an action other than ['more'], the state it ends
    in no longer depends on the state it started from: everything before
    the last ['request'], ['init'] or ['error'] is forgotten. *)
Theorem run_forgets_its_start (s s' : State) (l : list Action) :
  last_decisive l <> None ->
  after s l = after s' l.
Proof.
  revert s s'. induction l as [|a l IH]; intros s s' H.
  - now contradiction H.
  - rewrite !after_cons. simpl in H.
    destruct (last_decisive l) as [b|] eqn:Hl.
    + apply IH. discriminate.
    + destruct a as [|o|o|e]; try reflexivity. now contradiction H.
Qed.

Lemma run_forgets_its_start_witness :
  last_decisive [AInit Sample.first_page; AMore Sample.last_page] <> None /\
  after SLoading [AInit Sample.first_page; AMore Sample.last_page]
  = after (SError "boom") [AInit Sample.first_page; AMore Sample.last_page].
Proof.
  split.
  - discriminate.
  - apply (@run_forgets_its_start SLoading (SError "boom")
             [AInit Sample.first_page; AMore Sample.last_page]).
    discriminate.
Defined.

(** X6. Whether a run ends in a success state is decided by its last action
    other than ['more']: it does when that action is ['init'], it does not
    when it is ['request'] or ['error'], and without such an action the run
    ends in a success state exactly when it started in one. *)
Theorem success_follows_last_decisive (s : State) (l : list Action) :
  is_success (after s l)
  = match last_decisive l with
    | None => is_success s
    | Some (AInit _) => true
    | Some _ => false
    end.
Proof.
  revert s. induction l as [|a l IH]; intros s.
  - reflexivity.
  - rewrite after_cons, IH. simpl.
    destruct (last_decisive l) as [b|]; [reflexivity |].
    destruct a as [|o|o|e]; try reflexivity.
    destruct s; reflexivity.
Qed.

Lemma reducer_empty (s : State) (a : Action) :
  reducer s a = SEmpty -> s = SEmpty /\ is_more a = true.
Proof.
  destruct a as [|o|o|e]; try discriminate.
  destruct s as [| |e|st].
  - now split.
  - discriminate.
  - discriminate.
  - rewrite reducer_more_success. discriminate.
Qed.

(** X7. The reducer never comes back to the empty state: a run ends in
    [{ status: 'empty' }] exactly when it started there and held nothing
    but ['more'] actions. *)
Theorem empty_only_at_the_start (s : State) (l : list Action) :
  after s l = SEmpty <-> s = SEmpty /\ forallb is_more l = true.
Proof.
  split.
  - revert s. induction l as [|a l IH]; intros s H.
    + now split.
    + rewrite after_cons in H. apply IH in H. destruct H as [H Hl].
      apply reducer_empty in H. destruct H as [-> Ha].
      split; [reflexivity |]. simpl. now rewrite Ha, Hl.
  - intros [-> Hl]. now apply mores_outside_success.
Qed.

(** X8. Only a ['request'] action leads to the loading state: a run without
    one, started in a state that is not loading, does not end in
    [{ status: 'loading' }]. *)
Theorem loading_needs_a_request (s : State) (l : list Action) :
  existsb is_request l = false ->
  s <> SLoading ->
  after s l <> SLoading.
Proof.
  revert s. induction l as [|a l IH]; intros s Hl Hs.
  - exact Hs.
  - simpl in Hl. apply orb_false_elim in Hl. destruct Hl as [Ha Hl].
    rewrite after_cons. apply IH; [exact Hl |].
    destruct a as [|o|o|e].
    + discriminate Ha.
    + discriminate.
    + destruct s as [| |e|st].
      * discriminate.
      * exact Hs.
      * discriminate.
      * rewrite reducer_more_success. discriminate.
    + discriminate.
Qed.

Lemma loading_needs_a_request_witness :
  existsb is_request [AInit Sample.first_page; AError "boom";
                      AMore Sample.last_page] = false /\
  SEmpty <> SLoading /\
  after SEmpty [AInit Sample.first_page; AError "boom"; AMore Sample.last_page]
  <> SLoading.
Proof.
  split; [reflexivity | split; [discriminate |]].
  apply (@loading_needs_a_request SEmpty
           [AInit Sample.first_page; AError "boom"; AMore Sample.last_page]).
  - reflexivity.
  - discriminate.
Defined.

(** ** The callbacks: the other replies *)

(** X9. When the post is rejected (no reply at all), the fetch dispatches
    one ['error'] action with the [stack] of the rejection and the state
    becomes the error state with that text. *)
Theorem rejected_post_fails_with_its_stack (engine : Engine)
  (network : Request -> Settled) (search : string) (limit : Z)
  (cursor : option string) (st : State) (e : JsError) :
  network (request_for search limit cursor) = Rejected e ->
  events (run network (onFetchRepos engine search limit cursor) st)
  = [EvPost (request_for search limit cursor); EvDispatch (AError (stack e))]
  /\
  final (run network (onFetchRepos engine search limit cursor) st)
  = SError (stack e).
Proof.
  intros H. rewrite (onFetchRepos_rejected engine _ _ _ _ st H).
  split; reflexivity.
Qed.

Lemma rejected_post_fails_with_its_stack_witness :
  Sample.always (Rejected {| err_message := "Network Error";
                             stack := "Error: Network Error" |})
                (request_for "octocat" 4 None)
  = Rejected {| err_message := "Network Error";
                stack := "Error: Network Error" |}
  /\
  final (run (Sample.always (Rejected {| err_message := "Network Error";
                                         stack := "Error: Network Error" |}))
             (onFetchRepos Sample.v8 "octocat" 4 None)
             (SSuccess Sample.first_page))
  = SError "Error: Network Error".
Proof.
  split.
  - reflexivity.
  - apply (@rejected_post_fails_with_its_stack Sample.v8
             (Sample.always (Rejected {| err_message := "Network Error";
                                         stack := "Error: Network Error" |}))
             "octocat" 4%Z None (SSuccess Sample.first_page)
             {| err_message := "Network Error";
                stack := "Error: Network Error" |}).
    reflexivity.
Defined.

(** X10. A reply that carries neither [data] nor [errors] is a failure too:
    reading [data.organization] throws, the [catch] block dispatches the
    ['error'] action with the stack of that [TypeError], and neither
    ['init'] nor ['more'] is dispatched. *)
Theorem reply_without_data_fails (engine : Engine)
  (network : Request -> Settled) (search : string) (limit : Z)
  (cursor : option string) (st : State) :
  network (request_for search limit cursor)
  = Resolved {| resp_data := {| body_data := None; body_errors := None |} |} ->
  dispatched (events (run network (onFetchRepos engine search limit cursor) st))
  = [AError (stack (missing_data_error engine))]
  /\
  final (run network (onFetchRepos engine search limit cursor) st)
  = SError (stack (missing_data_error engine)).
Proof.
  intros H. rewrite (onFetchRepos_missing_data engine _ _ _ _ st H).
  split; reflexivity.
Qed.

Lemma reply_without_data_fails_witness :
  Sample.always
    (Resolved {| resp_data := {| body_data := None; body_errors := None |} |})
    (request_for "octocat" 4 (Some "c1"))
  = Resolved {| resp_data := {| body_data := None; body_errors := None |} |}
  /\
  final (run (Sample.always
                (Resolved {| resp_data := {| body_data := None;
                                             body_errors := None |} |}))
             (onFetchRepos Sample.v8 "octocat" 4 (Some "c1"))
             (SSuccess Sample.first_page))
  = SError (stack (missing_data_error Sample.v8)).
Proof.
  split.
  - reflexivity.
  - apply (@reply_without_data_fails Sample.v8
             (Sample.always
                (Resolved {| resp_data := {| body_data := None;
                                             body_errors := None |} |}))
             "octocat" 4%Z (Some "c1") (SSuccess Sample.first_page)).
    reflexivity.
Defined.

(** X11. Neither callback lets an exception out: whatever the network does,
    [onFetchRepos] and [onFetchMoreRepos] end normally, every throw having
    been turned into an ['error'] action by the [catch] block. *)
Theorem callbacks_never_throw (engine : Engine)
  (network : Request -> Settled) (search : string) (limit : Z)
  (cursor : option string) (state st : State) :
  result (run network (onFetchRepos engine search limit cursor) st) = inr tt
  /\
  result (run network (onFetchMoreRepos engine search state) st) = inr tt.
Proof.
  assert (H : forall l c,
             result (run network (onFetchRepos engine search l c) st) = inr tt).
  { intros l c.
    destruct (onFetchRepos_outcome engine network search l c st) as [a [Hr _]].
    now rewrite Hr. }
  split; [apply H |].
  destruct state; try reflexivity. apply H.
Qed.

(** X12. An [errors] array counts even when it is empty: the reply is
    treated as a failure, its [data] is dropped, and the error state holds
    the stack of an [Error] with the empty message. *)
Theorem empty_errors_array_still_fails (engine : Engine)
  (network : Request -> Settled) (search : string) (limit : Z)
  (cursor : option string) (st : State) (d : option GQData) :
  network (request_for search limit cursor) = errors_reply d [] ->
  dispatched (events (run network (onFetchRepos engine search limit cursor) st))
  = [AError (error_stack engine "")]
  /\
  final (run network (onFetchRepos engine search limit cursor) st)
  = SError (error_stack engine "").
Proof.
  intros H. rewrite (onFetchRepos_errors engine _ _ _ _ st H).
  split; reflexivity.
Qed.

Lemma empty_errors_array_still_fails_witness :
  Sample.always
    (errors_reply (Some {| organization :=
                             Sample.octocat 5 "c1" true [Sample.hello] |}) [])
    (request_for "octocat" 4 None)
  = errors_reply (Some {| organization :=
                            Sample.octocat 5 "c1" true [Sample.hello] |}) []
  /\
  final (run (Sample.always
                (errors_reply
                   (Some {| organization :=
                              Sample.octocat 5 "c1" true [Sample.hello] |})
                   []))
             (onFetchRepos Sample.v8 "octocat" 4 None) SEmpty)
  = SError (error_stack Sample.v8 "").
Proof.
  split.
  - reflexivity.
  - apply (@empty_errors_array_still_fails Sample.v8
             (Sample.always
                (errors_reply
                   (Some {| organization :=
                              Sample.octocat 5 "c1" true [Sample.hello] |})
                   []))
             "octocat" 4%Z None SEmpty
             (Some {| organization :=
                        Sample.octocat 5 "c1" true [Sample.hello] |})).
    reflexivity.
Defined.

(** ** The callbacks: a click on [More] *)

(** X13. In a success state whose [endCursor] is not empty,
    [onFetchMoreRepos] asks for four repositories of [query] after that
    cursor, and a reply with data is appended: the entries become the ones
    held followed by the ones received. *)
Theorem fetch_more_appends (engine : Engine) (network : Request -> Settled)
  (query : string) (o : DataObj) (org : GQResponse) :
  endCursor (pageInfo (repositories (data o))) <> "" ->
  network (request_for query 4
             (Some (endCursor (pageInfo (repositories (data o))))))
  = success_reply org ->
  events (run network (onFetchMoreRepos engine query (SSuccess o)) (SSuccess o))
  = [EvPost (request_for query 4
               (Some (endCursor (pageInfo (repositories (data o))))));
     EvDispatch (AMore {| data := org |})]
  /\
  entries
    (final (run network (onFetchMoreRepos engine query (SSuccess o))
                (SSuccess o)))
  = (entries (SSuccess o) ++ edges (repositories org))%list.
Proof.
  intros Hc H. cbn [onFetchMoreRepos].
  rewrite (onFetchRepos_success engine _ _ _ _ (SSuccess o) H).
  unfold success_action, truthy.
  destruct (String.eqb_spec (endCursor (pageInfo (repositories (data o)))) "")
    as [Heq | _]; [contradiction |].
  cbn [negb events final]. split; [reflexivity |].
  rewrite reducer_more_set. cbn [entries].
  destruct lawful_edgeLens as (H1 & _ & _).
  unfold R.view at 1. now rewrite H1.
Qed.

Lemma fetch_more_appends_witness :
  endCursor (pageInfo (repositories (data Sample.first_page))) <> "" /\
  Sample.always (success_reply (data Sample.last_page))
                (request_for "octocat" 4 (Some "c1"))
  = success_reply (data Sample.last_page) /\
  entries
    (final (run (Sample.always (success_reply (data Sample.last_page)))
                (onFetchMoreRepos Sample.v8 "octocat"
                                  (SSuccess Sample.first_page))
                (SSuccess Sample.first_page)))
  = [Sample.hello; Sample.spoon].
Proof.
  split; [discriminate | split; [reflexivity |]].
  apply (@fetch_more_appends Sample.v8
           (Sample.always (success_reply (data Sample.last_page)))
           "octocat" Sample.first_page (data Sample.last_page)).
  - discriminate.
  - reflexivity.
Defined.

(** ** What is on the page *)

Lemma items_bind_no_click (es : list Edge) :
  flat_map (fun n => bound "onClick" (attrs_of n))
           (flat_map nodes (map View.item es)) = [].
Proof.
  induction es as [|e es IH].
  - reflexivity.
  - cbn [map flat_map]. rewrite flat_map_app, IH.
    destruct e as [[i n v sg [d|] c]]; reflexivity.
Qed.

Lemma items_keys (es : list Edge) :
  flat_map (fun n => match n with
                     | Tag "li" (Key k :: _) _ => [k]
                     | _ => []
                     end)
           (flat_map nodes (map View.item es))
  = map (fun e => id (node e)) es.
Proof.
  induction es as [|e es IH].
  - reflexivity.
  - cbn [map flat_map]. rewrite flat_map_app, IH.
    destruct e as [[i n v sg [d|] c]]; reflexivity.
Qed.

Lemma offers_more_App (h : Hooks.t) :
  offers_more (View.App h)
  = match Hooks.state h with
    | SSuccess o => hasNextPage (pageInfo (repositories (data o)))
    | _ => false
    end.
Proof.
  destruct h as [u q [| |e|o]]; try reflexivity.
  unfold offers_more, on_click, View.App, View.Organization, View.Repositories.
  cbn [Hooks.state nodes flat_map app bound attrs_of].
  rewrite !flat_map_app, items_bind_no_click.
  destruct (hasNextPage (pageInfo (repositories (data o)))); reflexivity.
Qed.

(** X14. The page offers the [More] button exactly when the state is a
    success state whose last page said [hasNextPage]; in the empty, loading
    and error states, and after a last page, no click can reach
    [onFetchMoreRepos]. *)
Theorem more_button_iff_next_page (h : Hooks.t) :
  offers_more (View.App h) = true <->
  exists o : DataObj,
    Hooks.state h = SSuccess o /\
    hasNextPage (pageInfo (repositories (data o))) = true.
Proof.
  rewrite offers_more_App. split.
  - destruct (Hooks.state h) as [| |e|o]; try discriminate.
    intros H. now exists o.
  - intros [o [-> H]]. exact H.
Qed.

(** X15. The list on the page has one item per entry held, in the order of
    the entries, each keyed by the id of its node; so an entry received
    twice gives two items with the same key. *)
Theorem list_items_follow_entries (h : Hooks.t) :
  item_keys (View.App h)
  = map (fun e => id (node e)) (entries (Hooks.state h)).
Proof.
  destruct h as [u q [| |e|o]]; try reflexivity.
  unfold item_keys, View.App, View.Organization, View.Repositories.
  cbn [Hooks.state nodes flat_map app entries].
  rewrite !flat_map_app, items_keys, view_edgeLens.
  destruct (hasNextPage (pageInfo (repositories (data o))));
    cbn; now rewrite !app_nil_r.
Qed.

(** ** The component over a session *)

Lemma reducer_keeps_out_of_loading (s : State) (a : Action) :
  a <> ARequest -> s <> SLoading -> reducer s a <> SLoading.
Proof.
  intros Ha Hs. destruct a as [|o|o|e].
  - now contradiction Ha.
  - discriminate.
  - destruct s as [| |e|st].
    + discriminate.
    + exact Hs.
    + discriminate.
    + rewrite reducer_more_success. discriminate.
  - discriminate.
Qed.

Lemma fetch_keeps_out_of_loading (engine : Engine)
  (network : Request -> Settled) (search : string) (limit : Z)
  (cursor : option string) (st : State) :
  st <> SLoading ->
  final (run network (onFetchRepos engine search limit cursor) st) <> SLoading.
Proof.
  intros Hs.
  destruct (onFetchRepos_outcome engine network search limit cursor st)
    as [a [Hr Ha]].
  rewrite Hr. cbn [final]. now apply reducer_keeps_out_of_loading.
Qed.

Lemma step_keeps_out_of_loading (engine : Engine) (h : Hooks.t)
  (ev : UserEvent) (network : Request -> Settled) :
  Hooks.state h <> SLoading ->
  Hooks.state (fst (step engine h ev network)) <> SLoading.
Proof.
  intros Hs. destruct ev as [value| |]; cbn [step].
  - exact Hs.
  - destruct (effect_due h (onSubmit h)); [| exact Hs].
    unfold effect, settle. cbn [fst Hooks.state onSubmit Hooks.query].
    now apply fetch_keeps_out_of_loading.
  - destruct (offers_more (View.App h)); [| exact Hs].
    unfold settle. cbn [fst Hooks.state].
    destruct (Hooks.state h) as [| |e|o] eqn:Hst.
    + discriminate.
    + now contradiction Hs.
    + discriminate.
    + cbn [onFetchMoreRepos]. now apply fetch_keeps_out_of_loading.
Qed.

Lemma session_keeps_out_of_loading (engine : Engine)
  (l : list (UserEvent * (Request -> Settled))) :
  forall h : Hooks.t,
    Hooks.state h <> SLoading ->
    Hooks.state (fst (session engine h l)) <> SLoading.
Proof.
  induction l as [|[ev network] l IH]; intros h Hs.
  - exact Hs.
  - cbn [session].
    pose proof (@step_keeps_out_of_loading engine h ev network Hs) as H1.
    destruct (step engine h ev network) as [h1 tr1].
    specialize (IH h1 H1).
    destruct (session engine h1 l) as [h2 tr2]. exact IH.
Qed.

(** X16. The page never shows [Loading ...]: from the first render on,
    whatever the user does and whatever the network answers, the state of
    the component is never [{ status: 'loading' }]. *)
Theorem session_never_loading (engine : Engine)
  (network : Request -> Settled)
  (l : list (UserEvent * (Request -> Settled))) :
  Hooks.state (fst (mount engine network)) <> SLoading /\
  Hooks.state (fst (session engine (fst (mount engine network)) l))
  <> SLoading.
Proof.
  assert (Hooks.state (fst (mount engine network)) <> SLoading) as H.
  { unfold mount, effect, settle. cbn [fst Hooks.state].
    apply fetch_keeps_out_of_loading. discriminate. }
  split; [exact H |]. now apply session_keeps_out_of_loading.
Qed.

(** X17. A click on [More] does something only in a success state whose
    last page said [hasNextPage]; it then fetches four repositories of the
    submitted [query] after the [endCursor] held. In every other state the
    click changes nothing and posts nothing. *)
Theorem click_more_fetches_after_cursor (engine : Engine) (h : Hooks.t)
  (network : Request -> Settled) :
  step engine h ClickMore network
  = match Hooks.state h with
    | SSuccess o =>
        if hasNextPage (pageInfo (repositories (data o))) then
          settle network h
                 (onFetchRepos engine (Hooks.query h) 4
                    (Some (endCursor (pageInfo (repositories (data o))))))
        else (h, [])
    | _ => (h, [])
    end.
Proof.
  cbn [step]. rewrite offers_more_App.
  destruct (Hooks.state h) as [| |e|o]; reflexivity.
Qed.

(** X18. Submitting a name other than the one submitted before fetches the
    first page of that name, four repositories and no cursor; on a reply
    with data the state holds that reply as it came, whatever was held
    before. *)
Theorem new_search_replaces_entries (engine : Engine) (h : Hooks.t)
  (network : Request -> Settled) (org : GQResponse) :
  Hooks.usrInput h <> Hooks.query h ->
  network (request_for (Hooks.usrInput h) 4 None) = success_reply org ->
  step engine h Submit network
  = ({| Hooks.usrInput := Hooks.usrInput h;
        Hooks.query := Hooks.usrInput h;
        Hooks.state := SSuccess {| data := org |} |},
     [EvPost (request_for (Hooks.usrInput h) 4 None);
      EvDispatch (AInit {| data := org |})]).
Proof.
  intros Hneq H. cbn [step]. unfold effect_due.
  cbn [onSubmit Hooks.query].
  destruct (String.eqb_spec (Hooks.query h) (Hooks.usrInput h)) as [Heq | _].
  - now contradiction Hneq.
  - cbn [negb]. unfold effect, settle, onSubmit.
    cbn [Hooks.query Hooks.usrInput Hooks.state].
    rewrite (onFetchRepos_success engine _ _ _ _ (Hooks.state h) H).
    reflexivity.
Qed.

Lemma new_search_replaces_entries_witness :
  Hooks.usrInput (onChange "octocat" initial)
  <> Hooks.query (onChange "octocat" initial) /\
  Sample.always (success_reply (data Sample.first_page))
                (request_for (Hooks.usrInput (onChange "octocat" initial))
                             4 None)
  = success_reply (data Sample.first_page) /\
  Hooks.state
    (fst (step Sample.v8 (onChange "octocat" initial) Submit
               (Sample.always (success_reply (data Sample.first_page)))))
  = SSuccess Sample.first_page.
Proof.
  split; [discriminate | split; [reflexivity |]].
  rewrite (@new_search_replaces_entries Sample.v8
             (onChange "octocat" initial)
             (Sample.always (success_reply (data Sample.first_page)))
             (data Sample.first_page)).
  - reflexivity.
  - discriminate.
  - reflexivity.
Defined.

(** X19. Submitting the name that is already the submitted one does
    nothing: [query] keeps its value, so the effect does not run again and
    no request is posted. *)
Theorem same_search_is_inert (engine : Engine) (h : Hooks.t)
  (network : Request -> Settled) :
  Hooks.usrInput h = Hooks.query h ->
  step engine h Submit network = (h, []).
Proof.
  intros Heq. cbn [step]. unfold effect_due. cbn [onSubmit Hooks.query].
  rewrite Heq, String.eqb_refl. cbn [negb].
  destruct h as [u q st]. cbn in Heq. now subst.
Qed.

Lemma same_search_is_inert_witness :
  Hooks.usrInput initial = Hooks.query initial /\
  step Sample.v8 initial Submit
       (Sample.always (success_reply (data Sample.first_page)))
  = (initial, []).
Proof.
  split.
  - reflexivity.
  - apply (@same_search_is_inert Sample.v8 initial
             (Sample.always (success_reply (data Sample.first_page)))).
    reflexivity.
Defined.

(** X20. Typing in the input does not change what [More] fetches: the click
    uses the name that was submitted, so after any change of the input it
    posts the same request and leads to the same state. *)
Theorem typing_does_not_retarget_more (engine : Engine) (h : Hooks.t)
  (value : string) (network : Request -> Settled) :
  snd (step engine (onChange value h) ClickMore network)
  = snd (step engine h ClickMore network) /\
  Hooks.state (fst (step engine (onChange value h) ClickMore network))
  = Hooks.state (fst (step engine h ClickMore network)).
Proof.
  cbn [step]. rewrite !offers_more_App. cbn [onChange Hooks.state Hooks.query].
  destruct (match Hooks.state h with
            | SSuccess o => hasNextPage (pageInfo (repositories (data o)))
            | _ => false
            end); split; reflexivity.
Qed.

(** ** The reducer: entries against [totalCount], over served pages *)

Lemma more_pages_map (l : list Action) :
  forall ps, more_pages l = Some ps -> l = map AMore ps.
Proof.
  induction l as [|a l IH]; intros ps H.
  - injection H as <-. reflexivity.
  - destruct a as [|o|o|e]; try discriminate H.
    cbn [more_pages] in H.
    destruct (more_pages l) as [qs|]; [| discriminate H].
    injection H as <-. cbn [map]. now rewrite (IH qs eq_refl).
Qed.

Lemma pages_since_init_form (l : list Action) :
  forall pages,
    pages_since_init l = Some pages ->
    exists l0 p ps,
      pages = p :: ps /\ l = (l0 ++ AInit p :: map AMore ps)%list.
Proof.
  induction l as [|a l IH]; intros pages H.
  - discriminate H.
  - cbn [pages_since_init] in H.
    destruct (pages_since_init l) as [qs|].
    + injection H as <-.
      destruct (IH qs eq_refl) as (l0 & p & ps & Hq & Hl).
      exists (a :: l0), p, ps. split; [exact Hq |]. now rewrite Hl.
    + destruct a as [|p|o|e]; try discriminate H.
      destruct (more_pages l) as [ps|] eqn:Hm; [| discriminate H].
      injection H as <-.
      exists [], p, ps. split; [reflexivity |].
      cbn [app]. now rewrite (more_pages_map l Hm).
Qed.

Lemma no_pages_no_success (l : list Action) :
  forall s,
    pages_since_init l = None ->
    is_success s = false \/ more_pages l = None ->
    is_success (after s l) = false.
Proof.
  induction l as [|a l IH]; intros s Hp Hs.
  - destruct Hs as [Hs | Hs]; [exact Hs | discriminate Hs].
  - rewrite after_cons. cbn [pages_since_init] in Hp.
    destruct (pages_since_init l) as [qs|] eqn:Hl; [discriminate Hp |].
    apply IH; [reflexivity |].
    destruct a as [|p|p|e].
    + now left.
    + right. destruct (more_pages l); [discriminate Hp | reflexivity].
    + destruct Hs as [Hs | Hs].
      * left. destruct s; try reflexivity. discriminate Hs.
      * right. cbn [more_pages] in Hs.
        destruct (more_pages l); [discriminate Hs | reflexivity].
    + now left.
Qed.

Lemma last_in {A} (ps : list A) :
  forall p : A, In (last ps p) (p :: ps).
Proof.
  induction ps as [|q ps IH]; intros p.
  - now left.
  - right. destruct ps as [|r ps]; [now left |].
    change (In (last (r :: ps) p) (q :: r :: ps)).
    rewrite (last_of_nonempty ps r p q). apply IH.
Qed.

Lemma served_within_total (repos : list Edge) (p : DataObj)
  (ps : list DataObj) :
  served repos (p :: ps) ->
  within_total
    (SSuccess
       (R.setter edgeLens
          (R.view edgeLens p ++ flat_map (R.view edgeLens) ps)%list
          (last ps p))) = true.
Proof.
  intros [Hall [rest Hrest]].
  assert (Htotal : totalCount (repositories (data (last ps p)))
                   = Z.of_nat (length repos)).
  { rewrite Forall_forall in Hall. apply Hall. apply last_in. }
  cbn [flat_map] in Hrest.
  apply (f_equal (@length Edge)) in Hrest. rewrite length_app in Hrest.
  rewrite (view_edgeLens p) in Hrest.
  unfold within_total. cbn. rewrite Htotal.
  apply Z.leb_le. lia.
Qed.

(** C8, amended. The reducer does not itself bound the entries by
    [totalCount]; it keeps the bound when the server's pages are consistent.
    In every state reached from [Empty], if the pages the run ends with (the
    last first page and the further pages after it) are served from one
    list of repositories, each page reporting the length of that list as
    [totalCount] and the pages following one another from the start of the
    list, then a success state holds at most [totalCount] entries. *)
Theorem served_pages_stay_within_total (l : list Action) :
  (forall pages : list DataObj,
      pages_since_init l = Some pages ->
      exists repos : list Edge, served repos pages) ->
  within_total (after SEmpty l) = true.
Proof.
  intros H. destruct (pages_since_init l) as [pages|] eqn:Hp.
  - destruct (H pages eq_refl) as [repos Hs].
    destruct (pages_since_init_form l Hp) as (l0 & p & ps & -> & ->).
    rewrite after_app, after_cons. cbn [reducer].
    replace {| data := data p |} with p by now destruct p.
    rewrite mores_accumulate. now apply served_within_total with repos.
  - assert (Hn : is_success (after SEmpty l) = false).
    { apply no_pages_no_success; [exact Hp | now left]. }
    destruct (after SEmpty l); try reflexivity. discriminate Hn.
Qed.

Lemma served_pages_stay_within_total_witness :
  (forall pages : list DataObj,
      pages_since_init
        [ARequest; AInit Sample.first_page; AMore Sample.last_page]
      = Some pages ->
      exists repos : list Edge, served repos pages) /\
  within_total
    (after SEmpty [ARequest; AInit Sample.first_page; AMore Sample.last_page])
  = true.
Proof.
  assert (H : forall pages : list DataObj,
             pages_since_init
               [ARequest; AInit Sample.first_page; AMore Sample.last_page]
             = Some pages ->
             exists repos : list Edge, served repos pages).
  { intros pages Hp. cbn in Hp. injection Hp as <-.
    exists [Sample.hello; Sample.spoon]. split.
    - repeat constructor.
    - exists []. reflexivity. }
  split.
  - exact H.
  - apply (@served_pages_stay_within_total
             [ARequest; AInit Sample.first_page; AMore Sample.last_page]).
    exact H.
Defined.

(** The two pages of [entries_exceed_total] are not served from one list:
    they report different totals. *)
Lemma shrunk_pages_not_served (repos : list Edge) :
  ~ served repos [Sample.first_page; Sample.shrunk_page].
Proof.
  intros [Hall _].
  inversion Hall as [|x xs H1 H2]. inversion H2 as [|y ys H3 _].
  cbn in H1, H3. lia.
Qed.
